(** * runfx: the lifecycle runner of [runfx.go]

    A shallow embedding of [Run] and [RunAndExit].  The fx application, the
    contexts, the logger and the process exit are collaborators of the
    package: what they answer is data of the model, what the package asks of
    them is recorded, in program order, in a trace of events. *)

From Stdlib Require Import ZArith List String Ascii Bool DecimalString.
From Stdlib Require Import Sorted.
From Stdlib Require DecimalZ DecimalPos.
Import ListNotations.
Local Open Scope string_scope.
Local Open Scope Z_scope.
Local Open Scope list_scope.

(** ** Errors

    Go [error] values as [errors.As] tells them apart when its target is an
    [ExitError]: leaves such as those made by [errors.New], errors with an
    [Unwrap() error] method such as the [*fmt.wrapError] that [fmt.Errorf]
    builds for a [%w] verb, errors with an [Unwrap() []error] method such as
    those of [errors.Join], of [fmt.Errorf] with several [%w] and of fx's
    multierr, errors whose own [As] method fills the target, and the
    package's [ExitError] struct.  A nil error is [None] of
    [option error]. *)

(** [os.Signal] is an interface; the package only ever prints a signal, so a
    non-nil signal is represented by what its [String()] method answers. *)
Definition Signal := string.

#[warnings="-register-all"]
Inductive error : Type :=
| errorString (s : string)
| wrapError (msg : string) (err : error)
| wrapErrors (msg : string) (errs : list error)
| asError (msg : string) (ExitCode : Z) (Signal : option Signal)
| ExitError (ExitCode : Z) (Signal : option Signal).

(** [%d] of an [int]. *)
Definition fmt_d (n : Z) : string := NilZero.string_of_int (Z.to_int n).

(** [%s] of an [os.Signal]: the [String()] of a non-nil signal, and fmt's
    rendering of a nil interface value otherwise. *)
Definition fmt_s (s : option Signal) : string :=
  match s with
  | Some name => name
  | None => "%!s(<nil>)"
  end.

(** The format ["exit: code=%d signal=%s"], used by [ExitError.Error] and by
    the [log.Printf] of [RunAndExit]. *)
Definition exit_line (code : Z) (sig : option Signal) : string :=
  ("exit: code=" ++ fmt_d code ++ " signal=" ++ fmt_s sig)%string.
Arguments exit_line : simpl never.

(** The [Error()] method. *)
Definition Error (e : error) : string :=
  match e with
  | errorString s => s
  | wrapError msg _ => msg
  | wrapErrors msg _ => msg
  | asError msg _ _ => msg
  | ExitError code sig => exit_line code sig
  end.

(** The [Unwrap() error] method, where the error has one. *)
Definition Unwrap (e : error) : option error :=
  match e with
  | wrapError _ err => Some err
  | errorString _ | wrapErrors _ _ | asError _ _ _ | ExitError _ _ => None
  end.

(** [fmt.Errorf(tag + "%w", err)]: the message is the tag followed by the
    cause's message, and the cause is kept for [Unwrap]. *)
Definition fmt_Errorf (tag : string) (err : error) : error :=
  wrapError (tag ++ Error err)%string err.
Arguments fmt_Errorf : simpl never.

(** The first answer that [f] gives along a list. *)
Definition first_some {A B : Type} (f : A -> option B)
  : list A -> option B :=
  fix scan (l : list A) : option B :=
    match l with
    | [] => None
    | a :: l' =>
        match f a with
        | Some b => Some b
        | None => scan l'
        end
    end.

(** [errors.As(err, &exitErr)] with [exitErr] of type [ExitError].  An error
    whose dynamic type is [ExitError] fills the target, and so does one
    whose [As] method does.  Otherwise the search goes on in what [Unwrap]
    gives: the one wrapped error, or the wrapped errors in order, depth
    first.  The answer is the fields put in the target, or [None] when
    nothing matched. *)
Fixpoint errors_As (err : error) : option (Z * option Signal) :=
  match err with
  | ExitError code sig => Some (code, sig)
  | asError _ code sig => Some (code, sig)
  | wrapError _ inner => errors_As inner
  | wrapErrors _ errs => first_some errors_As errs
  | errorString _ => None
  end.

(** The errors met along the [Unwrap() error] chain, outermost first. *)
Fixpoint chain (err : error) : list error :=
  err :: match err with
         | wrapError _ inner => chain inner
         | _ => []
         end.

(** All the errors that [errors.As] may visit from [err], in the order it
    visits them. *)
Fixpoint tree (err : error) : list error :=
  err :: match err with
         | wrapError _ inner => tree inner
         | wrapErrors _ errs => flat_map tree errs
         | _ => []
         end.

(** Whether an error by itself fills a target of type [ExitError]. *)
Definition fills_ExitError (e : error) : bool :=
  match e with
  | ExitError _ _ | asError _ _ _ => true
  | errorString _ | wrapError _ _ | wrapErrors _ _ => false
  end.

(** Whether some error that [errors.As] may visit from [err] fills a target
    of type [ExitError]. *)
Definition has_ExitError (err : error) : bool :=
  existsb fills_ExitError (tree err).

(** ** Contexts *)

(** [time.Duration] is an [int64] count of nanoseconds. *)
Definition Duration := Z.

(** A context is the one the caller hands to [Run], or one derived from a
    parent by [context.WithTimeout].  Derived contexts are distinct objects
    even when parent and timeout agree: [serial] numbers them in the order
    the running function derives them. *)
Inductive Context : Type :=
| caller_ctx (id : nat)
| WithTimeout_ctx (parent : Context) (timeout : Duration) (serial : nat).

Fixpoint Context_eqb (a b : Context) : bool :=
  match a, b with
  | caller_ctx i, caller_ctx j => Nat.eqb i j
  | WithTimeout_ctx p d s, WithTimeout_ctx q d' s' =>
      Nat.eqb s s' && Z.eqb d d' && Context_eqb p q
  | _, _ => false
  end.

(** The [context.CancelFunc] that releases a derived context. *)
Inductive CancelFunc : Type :=
| cancel_of (c : Context).

(** ** The fx application *)

(** [fx.ShutdownSignal]. *)
Record ShutdownSignal : Type := {
  sig_Signal : option Signal;
  sig_ExitCode : Z
}.

(** What the [*fx.App] built by [fx.New] answers.  [Run] calls each method at
    most once, so an answer per method describes the application; [Start]
    and [Stop] see the context they are given.  [Wait] is [None] when the
    channel never delivers. *)
Record App : Type := {
  Err : option error;
  StartTimeout : Duration;
  StopTimeout : Duration;
  Start : Context -> option error;
  Wait : option ShutdownSignal;
  Stop : Context -> option error
}.

(** An [FxOpts] value.  [SetDefaulter] and [Validator] are [Some r] when the
    dynamic type implements the interface, [r] being what the method
    returns. *)
Record FxOpts : Type := {
  SetDefaulter : option (option error);
  Validator : option (option error);
  Fx : App
}.

(** ** Events *)

Inductive event : Type :=
| call_SetDefaults
| call_Validate
| call_New
| call_WithTimeout (derived : Context)
| call_Start (c : Context)
| call_Wait
| recv_Wait (sig : ShutdownSignal)
| call_Stop (c : Context)
| call_cancel (c : Context)
| log_line (s : string).

Definition is_Stop (e : event) : bool :=
  match e with call_Stop _ => true | _ => false end.

Definition is_Wait (e : event) : bool :=
  match e with call_Wait | recv_Wait _ => true | _ => false end.

Definition is_Start (e : event) : bool :=
  match e with call_Start _ => true | _ => false end.

Definition is_hook (e : event) : bool :=
  match e with call_SetDefaults | call_Validate => true | _ => false end.

Definition is_WithTimeout (e : event) : bool :=
  match e with call_WithTimeout _ => true | _ => false end.

Definition is_recv (e : event) : bool :=
  match e with recv_Wait _ => true | _ => false end.

Definition is_cancel_of (c : Context) (e : event) : bool :=
  match e with call_cancel c' => Context_eqb c c' | _ => false end.

(** Number of events of a trace that satisfy [p]. *)
Definition count (p : event -> bool) (t : list event) : nat :=
  List.length (List.filter p t).

(** [precedes p q t]: an event satisfying [p] occurs in [t] strictly before
    an event satisfying [q]. *)
Definition precedes (p q : event -> bool) (t : list event) : Prop :=
  exists t1 a t2 b t3,
    t = t1 ++ a :: t2 ++ b :: t3 /\ p a = true /\ q b = true.

(** [quiet_for p t]: no event of [t] satisfies [p]. *)
Definition quiet_for (p : event -> bool) (t : list event) : Prop :=
  Forall (fun e => p e = false) t.

(** [precedes], decided. *)
Fixpoint before (p q : event -> bool) (t : list event) : bool :=
  match t with
  | [] => false
  | a :: t' => (p a && existsb q t') || before p q t'
  end.

(** ** A function body: trace, deferred calls, early return *)

Module Body.

(** The running function's frame. *)
Record frame : Type := {
  trace : list event;
  deferred : list CancelFunc;
  derived : nat
}.

(** How a statement ends: it falls through with a value, it returns from
    the function, or it blocks for ever. *)
Inductive ctl (A : Type) : Type :=
| Next (a : A)
| Return (r : option error)
| Block.
Arguments Next {A} a.
Arguments Return {A} r.
Arguments Block {A}.

Definition t (A : Type) : Type := frame -> frame * ctl A.

Definition ret {A} (a : A) : t A := fun f => (f, Next a).

Definition bind {A B} (m : t A) (k : A -> t B) : t B :=
  fun f =>
    match m f with
    | (f', Next a) => k a f'
    | (f', Return r) => (f', Return r)
    | (f', Block) => (f', Block)
    end.

Definition emit (e : event) : t unit :=
  fun f => ({| trace := trace f ++ [e];
               deferred := deferred f;
               derived := derived f |}, Next tt).

(** The [defer] statement pushes a call. *)
Definition defer (c : CancelFunc) : t unit :=
  fun f => ({| trace := trace f;
               deferred := c :: deferred f;
               derived := derived f |}, Next tt).

(** The serial number of the next derived context. *)
Definition fresh : t nat :=
  fun f => ({| trace := trace f;
               deferred := deferred f;
               derived := S (derived f) |}, Next (derived f)).

(** The [return] statement. *)
Definition return_ {A} (r : option error) : t A := fun f => (f, Return r).

(** A receive on a channel that never delivers. *)
Definition block {A} : t A := fun f => (f, Block).

End Body.

Import Body.

Notation "x <- m ;; k" := (bind m (fun x => k))
  (at level 61, m at next level, right associativity).
Notation "m ;; k" := (bind m (fun _ => k))
  (at level 61, right associativity).

(** What a call of a function amounts to for its caller. *)
Inductive result : Type :=
| Returned (r : option error)
| Blocked.

(** Calling a deferred [CancelFunc]. *)
Definition run_cancel (c : CancelFunc) : event :=
  match c with cancel_of c => call_cancel c end.

(** Run a function body from an empty frame.  On return the deferred calls
    run, last deferred first; a body that blocks never gets there.  A body
    cannot fall off its end. *)
Definition call (body : t Empty_set) : list event * result :=
  match body {| trace := []; deferred := []; derived := 0 |} with
  | (f, Return r) => (trace f ++ map run_cancel (deferred f), Returned r)
  | (f, Block) => (trace f, Blocked)
  | (_, Next a) => match a with end
  end.

(** ** The collaborators, as statements *)

Definition context_WithTimeout (parent : Context) (timeout : Duration)
  : t (Context * CancelFunc) :=
  serial <- fresh ;;
  let c := WithTimeout_ctx parent timeout serial in
  emit (call_WithTimeout c) ;;
  ret (c, cancel_of c).

Definition SetDefaults (r : option error) : t (option error) :=
  emit call_SetDefaults ;; ret r.

Definition Validate (r : option error) : t (option error) :=
  emit call_Validate ;; ret r.

Definition fx_New (a : App) : t App :=
  emit call_New ;; ret a.

Definition App_Start (a : App) (c : Context) : t (option error) :=
  emit (call_Start c) ;; ret (Start a c).

Definition App_Stop (a : App) (c : Context) : t (option error) :=
  emit (call_Stop c) ;; ret (Stop a c).

(** [<-fxApp.Wait()]: [Wait()] hands out the channel, the receive blocks
    until a signal is delivered. *)
Definition recv_App_Wait (a : App) : t ShutdownSignal :=
  emit call_Wait ;;
  match Wait a with
  | Some sig => emit (recv_Wait sig) ;; ret sig
  | None => block
  end.

(** ** [Run] *)

Definition Run_body (ctx : Context) (fxOpts : FxOpts) : t Empty_set :=
  match SetDefaulter fxOpts with
  | Some defSetter =>
      err <- SetDefaults defSetter ;;
      match err with
      | Some err => return_ (Some (fmt_Errorf "set defaults: " err))
      | None => ret tt
      end
  | None => ret tt
  end ;;
  match Validator fxOpts with
  | Some validator =>
      err <- Validate validator ;;
      match err with
      | Some err => return_ (Some (fmt_Errorf "validate: " err))
      | None => ret tt
      end
  | None => ret tt
  end ;;
  fxApp <- fx_New (Fx fxOpts) ;;
  match Err fxApp with
  | Some err => return_ (Some (fmt_Errorf "fx.New: " err))
  | None => ret tt
  end ;;
  startCtx_startCancel <- context_WithTimeout ctx (StartTimeout fxApp) ;;
  let (startCtx, startCancel) := startCtx_startCancel : Context * CancelFunc in
  defer startCancel ;;
  err <- App_Start fxApp startCtx ;;
  match err with
  | Some err => return_ (Some (fmt_Errorf "fx.Start: " err))
  | None => ret tt
  end ;;
  sig <- recv_App_Wait fxApp ;;
  stopCtx_stopCancel <- context_WithTimeout ctx (StopTimeout fxApp) ;;
  let (stopCtx, stopCancel) := stopCtx_stopCancel : Context * CancelFunc in
  defer stopCancel ;;
  err <- App_Stop fxApp stopCtx ;;
  match err with
  | Some err => return_ (Some (fmt_Errorf "fx.Stop: " err))
  | None => ret tt
  end ;;
  if negb (sig_ExitCode sig =? 0)
  then return_ (Some (ExitError (sig_ExitCode sig) (sig_Signal sig)))
  else return_ None.

Definition Run (ctx : Context) (fxOpts : FxOpts) : list event * result :=
  call (Run_body ctx fxOpts).

(** ** [RunAndExit] *)

(** How the process ends: [os.Exit(code)] was called, or it never was. *)
Inductive ending : Type :=
| Exited (code : Z)
| Running.

Record process : Type := {
  events : list event;
  status : ending
}.

(** [os.Exit(code)] after the events [t]; nothing runs after it. *)
Definition os_Exit (t : list event) (code : Z) : process :=
  {| events := t; status := Exited code |}.

(** [log.Fatal(err)]: print [err.Error()], then [os.Exit(1)]. *)
Definition log_Fatal (t : list event) (err : error) : process :=
  os_Exit (t ++ [log_line (Error err)]) 1.

Definition RunAndExit (ctx : Context) (fxOpts : FxOpts) : process :=
  match Run ctx fxOpts with
  | (t, Returned (Some err)) =>
      match errors_As err with
      | Some (ExitCode, Signal) =>
          os_Exit (t ++ [log_line (exit_line ExitCode Signal)]) ExitCode
      | None => log_Fatal t err
      end
  | (t, Returned None) => os_Exit t 0
  | (t, Blocked) => {| events := t; status := Running |}
  end.

(** ** What a run shows

    The phases a run went through are read off its trace: a phase happened
    when its call is in the trace, and its outcome is what the application
    answered to that very call. *)

(** What [Start] answered, when it was called. *)
Definition Start_result (ctx : Context) (fxOpts : FxOpts)
  : option (option error) :=
  match find is_Start (fst (Run ctx fxOpts)) with
  | Some (call_Start c) => Some (Start (Fx fxOpts) c)
  | _ => None
  end.

(** What [Stop] answered, when it was called. *)
Definition Stop_result (ctx : Context) (fxOpts : FxOpts)
  : option (option error) :=
  match find is_Stop (fst (Run ctx fxOpts)) with
  | Some (call_Stop c) => Some (Stop (Fx fxOpts) c)
  | _ => None
  end.

(** The termination signal the receive delivered, when it did. *)
Definition Wait_result (ctx : Context) (fxOpts : FxOpts)
  : option ShutdownSignal :=
  match find is_recv (fst (Run ctx fxOpts)) with
  | Some (recv_Wait sig) => Some sig
  | _ => None
  end.

(** The two bounded contexts of a run. *)
Definition startCtx (ctx : Context) (fxOpts : FxOpts) : Context :=
  WithTimeout_ctx ctx (StartTimeout (Fx fxOpts)) 0.

Definition stopCtx (ctx : Context) (fxOpts : FxOpts) : Context :=
  WithTimeout_ctx ctx (StopTimeout (Fx fxOpts)) 1.

(** The tags [Run] puts in front of a phase's error. *)
Definition phase_tags : list string :=
  ["set defaults: "; "validate: "; "fx.New: "; "fx.Start: "; "fx.Stop: "]%string.

(** The same options with both optional methods implemented, each
    returning nil. *)
Definition with_hooks (fxOpts : FxOpts) : FxOpts :=
  {| SetDefaulter := Some None; Validator := Some None; Fx := Fx fxOpts |}.

(** ** The ways through [Run]

    [Run] is straight-line code with five early returns, one receive that may
    block and two final returns.  [path ctx fxOpts t r] lists those eight
    ways, each with the answers that lead there, the trace [t] it leaves and
    the result [r]. *)

(** A hook that is absent or returns nil lets the run go on. *)
Definition passes (hook : option (option error)) : bool :=
  match hook with
  | Some (Some _) => false
  | Some None | None => true
  end.

(** The call a hook leaves in the trace: none when it is not implemented. *)
Definition hook_call (ev : event) (hook : option (option error))
  : list event :=
  match hook with
  | Some _ => [ev]
  | None => []
  end.

(** The trace up to and including [fx.New]. *)
Definition prologue (fxOpts : FxOpts) : list event :=
  hook_call call_SetDefaults (SetDefaulter fxOpts) ++
  hook_call call_Validate (Validator fxOpts) ++ [call_New].

(** The trace of a run that got as far as calling [Stop]. *)
Definition full_trace (ctx : Context) (fxOpts : FxOpts)
  (sig : ShutdownSignal) : list event :=
  prologue fxOpts ++
  [call_WithTimeout (startCtx ctx fxOpts); call_Start (startCtx ctx fxOpts);
   call_Wait; recv_Wait sig;
   call_WithTimeout (stopCtx ctx fxOpts); call_Stop (stopCtx ctx fxOpts);
   call_cancel (stopCtx ctx fxOpts); call_cancel (startCtx ctx fxOpts)].

Inductive path (ctx : Context) (fxOpts : FxOpts)
  : list event -> result -> Prop :=
| path_SetDefaults e :
    SetDefaulter fxOpts = Some (Some e) ->
    path ctx fxOpts [call_SetDefaults]
      (Returned (Some (fmt_Errorf "set defaults: " e)))
| path_Validate e :
    passes (SetDefaulter fxOpts) = true ->
    Validator fxOpts = Some (Some e) ->
    path ctx fxOpts
      (hook_call call_SetDefaults (SetDefaulter fxOpts) ++ [call_Validate])
      (Returned (Some (fmt_Errorf "validate: " e)))
| path_New e :
    passes (SetDefaulter fxOpts) = true ->
    passes (Validator fxOpts) = true ->
    Err (Fx fxOpts) = Some e ->
    path ctx fxOpts (prologue fxOpts)
      (Returned (Some (fmt_Errorf "fx.New: " e)))
| path_Start e :
    passes (SetDefaulter fxOpts) = true ->
    passes (Validator fxOpts) = true ->
    Err (Fx fxOpts) = None ->
    Start (Fx fxOpts) (startCtx ctx fxOpts) = Some e ->
    path ctx fxOpts
      (prologue fxOpts ++
       [call_WithTimeout (startCtx ctx fxOpts);
        call_Start (startCtx ctx fxOpts);
        call_cancel (startCtx ctx fxOpts)])
      (Returned (Some (fmt_Errorf "fx.Start: " e)))
| path_Wait :
    passes (SetDefaulter fxOpts) = true ->
    passes (Validator fxOpts) = true ->
    Err (Fx fxOpts) = None ->
    Start (Fx fxOpts) (startCtx ctx fxOpts) = None ->
    Wait (Fx fxOpts) = None ->
    path ctx fxOpts
      (prologue fxOpts ++
       [call_WithTimeout (startCtx ctx fxOpts);
        call_Start (startCtx ctx fxOpts);
        call_Wait])
      Blocked
| path_Stop sig e :
    passes (SetDefaulter fxOpts) = true ->
    passes (Validator fxOpts) = true ->
    Err (Fx fxOpts) = None ->
    Start (Fx fxOpts) (startCtx ctx fxOpts) = None ->
    Wait (Fx fxOpts) = Some sig ->
    Stop (Fx fxOpts) (stopCtx ctx fxOpts) = Some e ->
    path ctx fxOpts (full_trace ctx fxOpts sig)
      (Returned (Some (fmt_Errorf "fx.Stop: " e)))
| path_ExitError sig :
    passes (SetDefaulter fxOpts) = true ->
    passes (Validator fxOpts) = true ->
    Err (Fx fxOpts) = None ->
    Start (Fx fxOpts) (startCtx ctx fxOpts) = None ->
    Wait (Fx fxOpts) = Some sig ->
    Stop (Fx fxOpts) (stopCtx ctx fxOpts) = None ->
    sig_ExitCode sig <> 0 ->
    path ctx fxOpts (full_trace ctx fxOpts sig)
      (Returned (Some (ExitError (sig_ExitCode sig) (sig_Signal sig))))
| path_nil sig :
    passes (SetDefaulter fxOpts) = true ->
    passes (Validator fxOpts) = true ->
    Err (Fx fxOpts) = None ->
    Start (Fx fxOpts) (startCtx ctx fxOpts) = None ->
    Wait (Fx fxOpts) = Some sig ->
    Stop (Fx fxOpts) (stopCtx ctx fxOpts) = None ->
    sig_ExitCode sig = 0 ->
    path ctx fxOpts (full_trace ctx fxOpts sig) (Returned None).

(** ** Sample applications *)

Definition root : Context := caller_ctx 0.

Definition quiet : ShutdownSignal :=
  {| sig_Signal := None; sig_ExitCode := 0 |}.

Definition exit_code (n : Z) : ShutdownSignal :=
  {| sig_Signal := None; sig_ExitCode := n |}.

(** What fx delivers when the process is sent SIGTERM. *)
Definition sigterm : ShutdownSignal :=
  {| sig_Signal := Some "terminated"%string; sig_ExitCode := 0 |}.

Definition healthy (sig : ShutdownSignal) : App := {|
  Err := None;
  StartTimeout := 15000000000;
  StopTimeout := 15000000000;
  Start := fun _ => None;
  Wait := Some sig;
  Stop := fun _ => None
|}.

Definition boom : error := errorString "boom".

Definition deadline_exceeded : error :=
  errorString "context deadline exceeded".

(** What [errors.Join(boom, ExitError{5, nil})] builds. *)
Definition joined_with_exit_5 : error :=
  wrapErrors (Error boom ++ String "010" (exit_line 5 None))%string
    [boom; ExitError 5 None].

(** What [errors.Join(boom, deadline_exceeded)] builds. *)
Definition joined_plain : error :=
  wrapErrors (Error boom ++ String "010" (Error deadline_exceeded))%string
    [boom; deadline_exceeded].

Definition start_fails (e : error) : App := {|
  Err := None;
  StartTimeout := 15000000000;
  StopTimeout := 15000000000;
  Start := fun _ => Some e;
  Wait := Some quiet;
  Stop := fun _ => None
|}.

Definition stop_fails (sig : ShutdownSignal) (e : error) : App := {|
  Err := None;
  StartTimeout := 15000000000;
  StopTimeout := 15000000000;
  Start := fun _ => None;
  Wait := Some sig;
  Stop := fun _ => Some e
|}.

Definition plain (a : App) : FxOpts :=
  {| SetDefaulter := None; Validator := None; Fx := a |}.

Definition defaults_fail (e : error) (a : App) : FxOpts :=
  {| SetDefaulter := Some (Some e); Validator := Some None; Fx := a |}.

Definition validate_fails (e : error) (a : App) : FxOpts :=
  {| SetDefaulter := Some None; Validator := Some (Some e); Fx := a |}.

Definition build_fails (e : error) : App := {|
  Err := Some e;
  StartTimeout := 15000000000;
  StopTimeout := 15000000000;
  Start := fun _ => None;
  Wait := Some quiet;
  Stop := fun _ => None
|}.

(** An application that is never asked to shut down. *)
Definition never_signalled : App := {|
  Err := None;
  StartTimeout := 15000000000;
  StopTimeout := 15000000000;
  Start := fun _ => None;
  Wait := None;
  Stop := fun _ => None
|}.

(** ** Reading a trace by phase *)

Definition is_SetDefaults (e : event) : bool :=
  match e with call_SetDefaults => true | _ => false end.

Definition is_Validate (e : event) : bool :=
  match e with call_Validate => true | _ => false end.

Definition is_New (e : event) : bool :=
  match e with call_New => true | _ => false end.

Definition is_cancel (e : event) : bool :=
  match e with call_cancel _ => true | _ => false end.

Definition is_log (e : event) : bool :=
  match e with log_line _ => true | _ => false end.

(** The place of a call in the lifecycle; the bookkeeping of contexts and
    the log lines have none. *)
Definition phase_rank (e : event) : option nat :=
  match e with
  | call_SetDefaults => Some 0%nat
  | call_Validate => Some 1%nat
  | call_New => Some 2%nat
  | call_Start _ => Some 3%nat
  | call_Wait => Some 4%nat
  | recv_Wait _ => Some 5%nat
  | call_Stop _ => Some 6%nat
  | call_WithTimeout _ | call_cancel _ | log_line _ => None
  end.

(** The lifecycle places of the calls of a trace, in trace order. *)
Fixpoint ranks (t : list event) : list nat :=
  match t with
  | [] => []
  | e :: t' =>
      match phase_rank e with
      | Some n => n :: ranks t'
      | None => ranks t'
      end
  end.

(** Whether a string is free of the space character. *)
Fixpoint spaceless (s : string) : bool :=
  match s with
  | EmptyString => true
  | String a s' => negb (Ascii.eqb a " ") && spaceless s'
  end.

(** * Properties *)

(** ** Traces *)

Lemma existsb_app_cons (q : event -> bool) t2 b t3 :
  q b = true -> existsb q (t2 ++ b :: t3) = true.
Proof.
  intros Hb. rewrite existsb_app. cbn. rewrite Hb.
  now rewrite orb_true_r.
Qed.

Lemma before_precedes p q t : before p q t = true <-> precedes p q t.
Proof.
  split.
  - induction t as [|a t IH]; cbn; [discriminate|].
    intros H. apply orb_true_iff in H. destruct H as [H|H].
    + apply andb_true_iff in H. destruct H as [Hp Hq].
      apply existsb_exists in Hq. destruct Hq as [b [Hin Hb]].
      apply in_split in Hin. destruct Hin as [t2 [t3 ->]].
      exists [], a, t2, b, t3. auto.
    + destruct (IH H) as (t1 & a' & t2 & b & t3 & -> & Hp & Hq).
      exists (a :: t1), a', t2, b, t3. auto.
  - intros (t1 & a & t2 & b & t3 & -> & Hp & Hq).
    induction t1 as [|x t1 IH]; cbn.
    + rewrite Hp, (existsb_app_cons q t2 b t3 Hq). reflexivity.
    + rewrite IH. apply orb_true_r.
Qed.

Lemma Context_eqb_refl c : Context_eqb c c = true.
Proof.
  induction c as [i|p IH d s]; cbn.
  - apply Nat.eqb_refl.
  - now rewrite Nat.eqb_refl, Z.eqb_refl, IH.
Qed.

Lemma Context_eqb_eq a b : Context_eqb a b = true <-> a = b.
Proof.
  split; [|intros ->; apply Context_eqb_refl].
  revert b; induction a as [i|p IH d s]; intros [j|q d' s']; cbn;
    try discriminate.
  - intros H. apply Nat.eqb_eq in H. now subst.
  - intros H. apply andb_true_iff in H. destruct H as [H Hp].
    apply andb_true_iff in H. destruct H as [Hs Hd].
    apply Nat.eqb_eq in Hs. apply Z.eqb_eq in Hd. apply IH in Hp.
    now subst.
Qed.

(** ** Every run takes one of the eight ways *)

Ltac run_unfold :=
  cbv [Run call Run_body SetDefaults Validate fx_New App_Start App_Stop
       recv_App_Wait context_WithTimeout bind emit defer fresh ret
       return_ block
       SetDefaulter Validator Fx Err StartTimeout StopTimeout Start Wait Stop
       trace deferred derived fst snd];
  cbn [app map run_cancel].

Ltac by_path c :=
  match goal with
  | |- path ?ctx ?o _ _ =>
      solve [eapply (c ctx o); first [reflexivity | eassumption]]
  end.

Lemma Run_path ctx fxOpts :
  path ctx fxOpts (fst (Run ctx fxOpts)) (snd (Run ctx fxOpts)).
Proof.
  destruct fxOpts as [sd va [err st sp start wait stop]].
  destruct sd as [[d|]|], va as [[v|]|], err as [b|]; run_unfold;
    try by_path path_SetDefaults; try by_path path_Validate;
    try by_path path_New.
  all: destruct (start (WithTimeout_ctx ctx st 0)) as [e|] eqn:Hstart;
    run_unfold; [by_path path_Start|].
  all: destruct wait as [sig|]; run_unfold; [|by_path path_Wait].
  all: destruct (stop (WithTimeout_ctx ctx sp 1)) as [e|] eqn:Hstop;
    run_unfold; [by_path path_Stop|].
  all: destruct (Z.eqb_spec (sig_ExitCode sig) 0) as [Hz|Hnz]; cbn [negb];
    run_unfold; [by_path path_nil|by_path path_ExitError].
Qed.

(** The eight ways exclude one another: a way whose premises hold is the
    one [Run] takes. *)
Lemma path_Run ctx fxOpts t r :
  path ctx fxOpts t r -> Run ctx fxOpts = (t, r).
Proof.
  intros P. pose proof (Run_path ctx fxOpts) as Q.
  destruct (Run ctx fxOpts) as [t' r']. cbn [fst snd] in Q.
  destruct P, Q;
    repeat match goal with
      | H : ?x = _, H' : ?x = _ |- _ =>
          rewrite H in H'; first [discriminate H' | injection H' as ->]
      | H : ?x = Some (Some _), H' : passes ?x = true |- _ =>
          rewrite H in H'; discriminate H'
      end;
    solve [reflexivity | contradiction].
Qed.

(** ** Quiet prefixes

    Events that a predicate ignores can be dropped from the front of a trace
    without changing what the predicate finds, counts or orders. *)

Section Quiet.

Variable p : event -> bool.

Lemma find_quiet t1 t2 : quiet_for p t1 -> find p (t1 ++ t2) = find p t2.
Proof.
  induction 1 as [|e l He _ IH]; cbn; [reflexivity|].
  now rewrite He.
Qed.

Lemma count_quiet t1 t2 : quiet_for p t1 -> count p (t1 ++ t2) = count p t2.
Proof.
  unfold count.
  induction 1 as [|e l He _ IH]; cbn; [reflexivity|].
  now rewrite He.
Qed.

Lemma before_quiet q t1 t2 :
  quiet_for p t1 -> before p q (t1 ++ t2) = before p q t2.
Proof.
  induction 1 as [|e l He _ IH]; cbn; [reflexivity|].
  now rewrite He.
Qed.

Lemma find_quiet_all t : quiet_for p t -> find p t = None.
Proof.
  intros H. rewrite <- (app_nil_r t). now rewrite find_quiet.
Qed.

Lemma count_quiet_all t : quiet_for p t -> count p t = 0%nat.
Proof.
  intros H. rewrite <- (app_nil_r t). now rewrite count_quiet.
Qed.

Lemma hook_call_quiet ev hook :
  p ev = false -> quiet_for p (hook_call ev hook).
Proof.
  intros H. destruct hook; cbn; repeat constructor; assumption.
Qed.

End Quiet.

Lemma prologue_quiet (p : event -> bool) fxOpts :
  p call_SetDefaults = false -> p call_Validate = false ->
  p call_New = false ->
  quiet_for p (prologue fxOpts).
Proof.
  intros Hd Hv Hn. unfold prologue.
  destruct (SetDefaulter fxOpts), (Validator fxOpts); cbn;
    repeat constructor; assumption.
Qed.

(** The prologue holds no call of [Start], [Wait], [Stop] or a cancel. *)
Ltac quiet :=
  first [ apply prologue_quiet; reflexivity
        | apply hook_call_quiet; reflexivity ].

Ltac drop_prologue :=
  repeat first
    [ rewrite find_quiet by quiet
    | rewrite count_quiet by quiet
    | rewrite before_quiet by quiet
    | rewrite find_quiet_all by quiet
    | rewrite count_quiet_all by quiet ].

(** ** From what a run shows to the way it took *)

Ltac on_path ctx fxOpts :=
  let P := fresh "P" in
  pose proof (Run_path ctx fxOpts) as P;
  unfold Start_result, Stop_result, Wait_result in *;
  let t := fresh "t" in
  let r := fresh "r" in
  destruct (Run ctx fxOpts) as [t r];
  cbn [fst snd] in *;
  destruct P; unfold full_trace in *.

Lemma Start_called ctx fxOpts a :
  Start_result ctx fxOpts = Some a ->
  passes (SetDefaulter fxOpts) = true /\
  passes (Validator fxOpts) = true /\
  Err (Fx fxOpts) = None /\
  Start (Fx fxOpts) (startCtx ctx fxOpts) = a.
Proof.
  intros H. on_path ctx fxOpts; revert H; drop_prologue; cbn;
    try discriminate; intros [= <-]; auto.
Qed.

Lemma Wait_delivered ctx fxOpts sig :
  Wait_result ctx fxOpts = Some sig ->
  Start_result ctx fxOpts = Some None /\ Wait (Fx fxOpts) = Some sig.
Proof.
  intros H. on_path ctx fxOpts; revert H; drop_prologue; cbn;
    try discriminate; intros [= <-]; split; congruence.
Qed.

Lemma Stop_called ctx fxOpts a :
  Stop_result ctx fxOpts = Some a ->
  Stop (Fx fxOpts) (stopCtx ctx fxOpts) = a /\
  exists sig, Wait_result ctx fxOpts = Some sig.
Proof.
  intros H. on_path ctx fxOpts; revert H; drop_prologue; cbn;
    try discriminate; intros [= <-]; split; eauto.
Qed.

(** ** From the way a run took to what [Run] returns *)

Lemma Run_Start_failed ctx fxOpts e :
  Start_result ctx fxOpts = Some (Some e) ->
  Run ctx fxOpts =
    (prologue fxOpts ++
     [call_WithTimeout (startCtx ctx fxOpts);
      call_Start (startCtx ctx fxOpts);
      call_cancel (startCtx ctx fxOpts)],
     Returned (Some (fmt_Errorf "fx.Start: " e))).
Proof.
  intros H. apply Start_called in H. destruct H as (Hd & Hv & Hb & Hs).
  now apply path_Run, path_Start.
Qed.

Lemma Run_Stop_failed ctx fxOpts sig e :
  Wait_result ctx fxOpts = Some sig ->
  Stop_result ctx fxOpts = Some (Some e) ->
  Run ctx fxOpts =
    (full_trace ctx fxOpts sig, Returned (Some (fmt_Errorf "fx.Stop: " e))).
Proof.
  intros Hw Hp.
  apply Wait_delivered in Hw. destruct Hw as [Hs Hw].
  apply Start_called in Hs. destruct Hs as (Hd & Hv & Hb & Hs).
  apply Stop_called in Hp. destruct Hp as [Hp _].
  now apply path_Run, path_Stop.
Qed.

Lemma Run_stopped ctx fxOpts sig :
  Wait_result ctx fxOpts = Some sig ->
  Stop_result ctx fxOpts = Some None ->
  Run ctx fxOpts =
    (full_trace ctx fxOpts sig,
     Returned (if sig_ExitCode sig =? 0 then None
               else Some (ExitError (sig_ExitCode sig) (sig_Signal sig)))).
Proof.
  intros Hw Hp.
  apply Wait_delivered in Hw. destruct Hw as [Hs Hw].
  apply Start_called in Hs. destruct Hs as (Hd & Hv & Hb & Hs).
  apply Stop_called in Hp. destruct Hp as [Hp _].
  apply path_Run.
  destruct (Z.eqb_spec (sig_ExitCode sig) 0) as [Hz|Hnz].
  - now apply path_nil.
  - now apply path_ExitError.
Qed.

(** Once the receive has delivered, the trace is the full one, whatever
    [Stop] answers. *)
Lemma Run_trace_delivered ctx fxOpts sig :
  Wait_result ctx fxOpts = Some sig ->
  fst (Run ctx fxOpts) = full_trace ctx fxOpts sig.
Proof.
  intros Hw.
  destruct (Wait_delivered _ _ _ Hw) as [Hs Hw'].
  apply Start_called in Hs. destruct Hs as (Hd & Hv & Hb & Hs).
  destruct (Stop (Fx fxOpts) (stopCtx ctx fxOpts)) as [e|] eqn:Hp.
  - now rewrite (path_Run ctx fxOpts _ _
                   (path_Stop ctx fxOpts sig e Hd Hv Hb Hs Hw' Hp)).
  - destruct (Z.eq_dec (sig_ExitCode sig) 0) as [Hz|Hnz].
    + now rewrite (path_Run ctx fxOpts _ _
                     (path_nil ctx fxOpts sig Hd Hv Hb Hs Hw' Hp Hz)).
    + now rewrite (path_Run ctx fxOpts _ _
                     (path_ExitError ctx fxOpts sig Hd Hv Hb Hs Hw' Hp Hnz)).
Qed.

(** A run that returned after a successful Start got a signal from Wait. *)
Lemma Run_returned_after_Start ctx fxOpts r :
  snd (Run ctx fxOpts) = Returned r ->
  Start_result ctx fxOpts = Some None ->
  exists sig, Wait_result ctx fxOpts = Some sig.
Proof.
  intros HR HS. on_path ctx fxOpts; revert HS; drop_prologue; cbn;
    try discriminate; intros HS; try congruence; eauto.
Qed.

(** The errors [Run] returns: a phase's error under that phase's tag, or
    the [ExitError] made from a termination signal whose code is not 0. *)
Lemma Run_error_shape ctx fxOpts err :
  snd (Run ctx fxOpts) = Returned (Some err) ->
  (exists tag cause, In tag phase_tags /\ err = fmt_Errorf tag cause) \/
  (exists sig, Wait_result ctx fxOpts = Some sig /\
               sig_ExitCode sig <> 0 /\
               err = ExitError (sig_ExitCode sig) (sig_Signal sig)).
Proof.
  intros HR. on_path ctx fxOpts; try discriminate HR; injection HR as <-;
    try (left; eexists; eexists; split; [|reflexivity]; cbn; tauto).
  right. exists sig. drop_prologue. cbn. auto.
Qed.

(** ** Errors *)

Lemma Unwrap_fmt_Errorf tag e : Unwrap (fmt_Errorf tag e) = Some e.
Proof. reflexivity. Qed.

Lemma prefix_append (s u : string) : String.prefix s (s ++ u)%string = true.
Proof.
  induction s as [|a s IH]; cbn.
  - now destruct u.
  - destruct (ascii_dec a a) as [_|Hne]; [exact IH|now elim Hne].
Qed.

(** Induction on errors that reaches inside the errors wrapped by an
    [Unwrap() []error]. *)
Lemma error_tree_ind (P : error -> Prop) :
  (forall s, P (errorString s)) ->
  (forall msg inner, P inner -> P (wrapError msg inner)) ->
  (forall msg errs, Forall P errs -> P (wrapErrors msg errs)) ->
  (forall msg code sig, P (asError msg code sig)) ->
  (forall code sig, P (ExitError code sig)) ->
  forall err, P err.
Proof.
  intros Hs Hw Hws Ha He. fix IH 1.
  intros [s|msg inner|msg errs|msg code sig|code sig].
  - apply Hs.
  - apply Hw, IH.
  - apply Hws. induction errs as [|e errs IHerrs]; constructor.
    + apply IH.
    + exact IHerrs.
  - apply Ha.
  - apply He.
Qed.

(** An [ExitError] on the [Unwrap() error] chain is the one [errors.As]
    finds. *)
Lemma errors_As_chain err code sig :
  In (ExitError code sig) (chain err) -> errors_As err = Some (code, sig).
Proof.
  induction err as [s|msg inner IH|msg errs|msg c g|c g]; cbn.
  - intros [H|[]]; discriminate H.
  - intros [H|H]; [discriminate H|now apply IH].
  - intros [H|[]]; discriminate H.
  - intros [H|[]]; discriminate H.
  - intros [[= -> ->]|[]]. reflexivity.
Qed.

(** [errors.As] finds nothing exactly when no error it may visit fills the
    target. *)
Lemma errors_As_has_ExitError err :
  errors_As err = None <-> has_ExitError err = false.
Proof.
  unfold has_ExitError.
  induction err as [s|msg inner IH|msg errs IH|msg c g|c g]
    using error_tree_ind; cbn.
  - tauto.
  - exact IH.
  - induction IH as [|e errs He _ IHerrs]; cbn; [tauto|].
    rewrite existsb_app, orb_false_iff.
    destruct (errors_As e) as [r|].
    + split; [discriminate|]. intros [H _].
      destruct He as [_ He]. now specialize (He H).
    + destruct He as [He _]. specialize (He eq_refl).
      cbn in He. rewrite He. tauto.
  - split; discriminate.
  - split; discriminate.
Qed.

(** A phase error that wraps a joined error holding an [ExitError] leaves
    through [os.Exit] with that code, not through [log.Fatal]. *)
Lemma RunAndExit_joined_ExitError :
  status (RunAndExit (caller_ctx 0)
            {| SetDefaulter := None;
               Validator := Some (Some joined_with_exit_5);
               Fx := healthy quiet |}) = Exited 5.
Proof. reflexivity. Qed.

(** ** The claims *)

(** C1, as amended: when Start succeeded, Wait delivered a termination
    signal and Stop succeeded, [Run] returns nil when the signal's exit code
    is 0, whether or not the signal carries an OS signal, and returns
    [ExitError] with the signal's code and OS signal when the exit code is
    not 0. *)
Theorem C1_outcome_follows_exit_code ctx fxOpts sig :
  Start_result ctx fxOpts = Some None ->
  Wait_result ctx fxOpts = Some sig ->
  Stop_result ctx fxOpts = Some None ->
  (sig_ExitCode sig = 0 -> snd (Run ctx fxOpts) = Returned None) /\
  (sig_ExitCode sig <> 0 ->
   snd (Run ctx fxOpts) =
     Returned (Some (ExitError (sig_ExitCode sig) (sig_Signal sig)))).
Proof.
  intros _ Hw Hp. rewrite (Run_stopped ctx fxOpts sig Hw Hp). cbn [snd].
  split; intros Hc.
  - now rewrite Hc.
  - apply Z.eqb_neq in Hc. now rewrite Hc.
Qed.

Lemma C1_outcome_follows_exit_code_witness :
  let fxOpts := plain (healthy (exit_code 2)) in
  Start_result root fxOpts = Some None /\
  Wait_result root fxOpts = Some (exit_code 2) /\
  Stop_result root fxOpts = Some None /\
  (sig_ExitCode (exit_code 2) = 0 -> snd (Run root fxOpts) = Returned None) /\
  (sig_ExitCode (exit_code 2) <> 0 ->
   snd (Run root fxOpts) = Returned (Some (ExitError 2 None))).
Proof.
  split; [reflexivity|]. split; [reflexivity|]. split; [reflexivity|].
  apply (C1_outcome_follows_exit_code root (plain (healthy (exit_code 2)))
           (exit_code 2)); reflexivity.
Defined.

(** C1, the claim as written fails: a termination signal with exit code 0
    and a non-nil OS signal, after a successful Start and before a
    successful Stop, makes [Run] return nil, not an [ExitError]. *)
Lemma C1_signal_with_code_0_returns_nil :
  let fxOpts := plain (healthy sigterm) in
  Start_result root fxOpts = Some None /\
  Wait_result root fxOpts = Some sigterm /\
  Stop_result root fxOpts = Some None /\
  sig_ExitCode sigterm = 0 /\
  sig_Signal sigterm = Some "terminated"%string /\
  snd (Run root fxOpts) = Returned None /\
  snd (Run root fxOpts) <>
    Returned (Some (ExitError (sig_ExitCode sigterm) (sig_Signal sigterm))).
Proof.
  cbv zeta. repeat split; try reflexivity. discriminate.
Qed.

(** C2: when Start succeeded and Wait delivered a termination signal,
    whatever its value, the trace of [Run] holds exactly one call of Stop,
    that call comes after the receive from Wait, and no call of Stop comes
    before Wait.  No way out of [Run] skips Stop: a run that returns after
    a successful Start has received a signal from Wait and called Stop. *)
Theorem C2_Stop_once_after_Wait ctx fxOpts :
  Start_result ctx fxOpts = Some None ->
  (forall sig,
     Wait_result ctx fxOpts = Some sig ->
     count is_Stop (fst (Run ctx fxOpts)) = 1%nat /\
     precedes is_recv is_Stop (fst (Run ctx fxOpts)) /\
     ~ precedes is_Stop is_Wait (fst (Run ctx fxOpts))) /\
  (forall r,
     snd (Run ctx fxOpts) = Returned r ->
     (exists sig, Wait_result ctx fxOpts = Some sig) /\
     count is_Stop (fst (Run ctx fxOpts)) = 1%nat).
Proof.
  intros HS.
  assert (Honce : forall sig, Wait_result ctx fxOpts = Some sig ->
                    count is_Stop (fst (Run ctx fxOpts)) = 1%nat).
  { intros sig Hw. rewrite (Run_trace_delivered ctx fxOpts sig Hw).
    unfold full_trace. now drop_prologue. }
  split.
  - intros sig Hw. split; [now apply Honce with sig|].
    rewrite (Run_trace_delivered ctx fxOpts sig Hw). unfold full_trace.
    split.
    + apply before_precedes. now drop_prologue.
    + intros H. apply before_precedes in H. revert H.
      drop_prologue. discriminate.
  - intros r HR.
    destruct (Run_returned_after_Start ctx fxOpts r HR HS) as [sig Hw].
    split; [now exists sig|now apply Honce with sig].
Qed.

Lemma C2_Stop_once_after_Wait_witness :
  let fxOpts := plain (healthy (exit_code 7)) in
  Start_result root fxOpts = Some None /\
  (forall sig,
     Wait_result root fxOpts = Some sig ->
     count is_Stop (fst (Run root fxOpts)) = 1%nat /\
     precedes is_recv is_Stop (fst (Run root fxOpts)) /\
     ~ precedes is_Stop is_Wait (fst (Run root fxOpts))) /\
  (forall r,
     snd (Run root fxOpts) = Returned r ->
     (exists sig, Wait_result root fxOpts = Some sig) /\
     count is_Stop (fst (Run root fxOpts)) = 1%nat).
Proof.
  split; [reflexivity|].
  apply (C2_Stop_once_after_Wait root (plain (healthy (exit_code 7)))).
  reflexivity.
Defined.

(** C3: when Wait delivered a termination signal with a nonzero exit code
    and Stop then failed, [Run] returns the error of Stop wrapped under the
    tag of the Stop phase, and not an [ExitError] carrying the signal's
    code. *)
Theorem C3_Stop_failure_takes_precedence ctx fxOpts sig e :
  Wait_result ctx fxOpts = Some sig ->
  sig_ExitCode sig <> 0 ->
  Stop_result ctx fxOpts = Some (Some e) ->
  snd (Run ctx fxOpts) = Returned (Some (fmt_Errorf "fx.Stop: " e)) /\
  Unwrap (fmt_Errorf "fx.Stop: " e) = Some e /\
  snd (Run ctx fxOpts) <>
    Returned (Some (ExitError (sig_ExitCode sig) (sig_Signal sig))).
Proof.
  intros Hw _ Hp. rewrite (Run_Stop_failed ctx fxOpts sig e Hw Hp).
  cbn [snd]. split; [reflexivity|]. split; [apply Unwrap_fmt_Errorf|].
  discriminate.
Qed.

Lemma C3_Stop_failure_takes_precedence_witness :
  let fxOpts := plain (stop_fails (exit_code 7) boom) in
  Wait_result root fxOpts = Some (exit_code 7) /\
  sig_ExitCode (exit_code 7) <> 0 /\
  Stop_result root fxOpts = Some (Some boom) /\
  snd (Run root fxOpts) = Returned (Some (fmt_Errorf "fx.Stop: " boom)) /\
  Unwrap (fmt_Errorf "fx.Stop: " boom) = Some boom /\
  snd (Run root fxOpts) <> Returned (Some (ExitError 7 None)).
Proof.
  split; [reflexivity|]. split; [discriminate|]. split; [reflexivity|].
  apply (C3_Stop_failure_takes_precedence root
           (plain (stop_fails (exit_code 7) boom)) (exit_code 7) boom);
    [reflexivity|discriminate|reflexivity].
Defined.

(** C4: when Build succeeded and Start failed, for whatever cause, a
    start-timeout included, [Run] returns the error of Start wrapped under
    the tag of the Start phase, and its trace holds no call of Wait and no
    call of Stop. *)
Theorem C4_Start_failure_skips_Wait_and_Stop ctx fxOpts e :
  Start_result ctx fxOpts = Some (Some e) ->
  snd (Run ctx fxOpts) = Returned (Some (fmt_Errorf "fx.Start: " e)) /\
  Unwrap (fmt_Errorf "fx.Start: " e) = Some e /\
  count is_Wait (fst (Run ctx fxOpts)) = 0%nat /\
  count is_Stop (fst (Run ctx fxOpts)) = 0%nat.
Proof.
  intros H. rewrite (Run_Start_failed ctx fxOpts e H). cbn [fst snd].
  repeat split; now drop_prologue.
Qed.

Lemma C4_Start_failure_skips_Wait_and_Stop_witness :
  let fxOpts := plain (start_fails deadline_exceeded) in
  Start_result root fxOpts = Some (Some deadline_exceeded) /\
  snd (Run root fxOpts) =
    Returned (Some (fmt_Errorf "fx.Start: " deadline_exceeded)) /\
  Unwrap (fmt_Errorf "fx.Start: " deadline_exceeded) =
    Some deadline_exceeded /\
  count is_Wait (fst (Run root fxOpts)) = 0%nat /\
  count is_Stop (fst (Run root fxOpts)) = 0%nat.
Proof.
  split; [reflexivity|].
  apply (C4_Start_failure_skips_Wait_and_Stop root
           (plain (start_fails deadline_exceeded)) deadline_exceeded).
  reflexivity.
Defined.

(** C5: when the SetDefaults method fails, [Run] calls SetDefaults once and
    nothing else, neither Validate, nor fx.New, Start, Wait or Stop, and
    returns at once the error of SetDefaults wrapped under the set-defaults
    tag: the error is neither retried nor dropped. *)
Theorem C5_SetDefaults_failure_returns_at_once ctx fxOpts e :
  SetDefaulter fxOpts = Some (Some e) ->
  Run ctx fxOpts =
    ([call_SetDefaults], Returned (Some (fmt_Errorf "set defaults: " e))) /\
  Unwrap (fmt_Errorf "set defaults: " e) = Some e /\
  String.prefix "set defaults: " (Error (fmt_Errorf "set defaults: " e))
    = true.
Proof.
  intros H. split; [|split].
  - now apply path_Run, path_SetDefaults.
  - reflexivity.
  - apply prefix_append.
Qed.

Lemma C5_SetDefaults_failure_returns_at_once_witness :
  let fxOpts := defaults_fail boom (healthy quiet) in
  SetDefaulter fxOpts = Some (Some boom) /\
  Run root fxOpts =
    ([call_SetDefaults], Returned (Some (fmt_Errorf "set defaults: " boom))) /\
  Unwrap (fmt_Errorf "set defaults: " boom) = Some boom /\
  String.prefix "set defaults: " (Error (fmt_Errorf "set defaults: " boom))
    = true.
Proof.
  split; [reflexivity|].
  apply (C5_SetDefaults_failure_returns_at_once root
           (defaults_fail boom (healthy quiet)) boom).
  reflexivity.
Defined.

(** Hooks that are absent and hooks that return nil lead the same way: the
    run with both hooks implemented and passing is the run without them,
    with the two calls in front. *)
Lemma path_with_hooks ctx fxOpts t r :
  SetDefaulter fxOpts = None -> Validator fxOpts = None ->
  path ctx fxOpts t r ->
  path ctx (with_hooks fxOpts) (call_SetDefaults :: call_Validate :: t) r.
Proof.
  intros Hd Hv P.
  destruct P; unfold full_trace, prologue in *;
    try rewrite Hd in *; try rewrite Hv in *; try discriminate;
    cbn [hook_call app].
  - now apply (path_New ctx (with_hooks fxOpts) e).
  - now apply (path_Start ctx (with_hooks fxOpts) e).
  - now apply (path_Wait ctx (with_hooks fxOpts)).
  - now apply (path_Stop ctx (with_hooks fxOpts) sig e).
  - now apply (path_ExitError ctx (with_hooks fxOpts) sig).
  - now apply (path_nil ctx (with_hooks fxOpts) sig).
Qed.

(** C6: for options that implement neither SetDefaults nor Validate, the
    first thing [Run] does is build the application, no hook is called, and
    the result is the one [Run] gives for the same application with both
    methods implemented and returning nil: the absence of the methods causes
    no error. *)
Theorem C6_absent_hooks_are_skipped ctx fxOpts :
  SetDefaulter fxOpts = None ->
  Validator fxOpts = None ->
  (exists rest, fst (Run ctx fxOpts) = call_New :: rest) /\
  count is_hook (fst (Run ctx fxOpts)) = 0%nat /\
  snd (Run ctx fxOpts) = snd (Run ctx (with_hooks fxOpts)).
Proof.
  intros Hd Hv.
  pose proof (Run_path ctx fxOpts) as P.
  rewrite (path_Run _ _ _ _ (path_with_hooks _ _ _ _ Hd Hv P)). cbn [snd].
  split; [|split; [|reflexivity]].
  - destruct P; unfold full_trace, prologue;
      try rewrite Hd in *; try rewrite Hv in *; try discriminate;
      cbn [hook_call app]; eexists; reflexivity.
  - destruct P; unfold full_trace, prologue;
      try rewrite Hd in *; try rewrite Hv in *; try discriminate;
      reflexivity.
Qed.

Lemma C6_absent_hooks_are_skipped_witness :
  let fxOpts := plain (healthy quiet) in
  SetDefaulter fxOpts = None /\
  Validator fxOpts = None /\
  (exists rest, fst (Run root fxOpts) = call_New :: rest) /\
  count is_hook (fst (Run root fxOpts)) = 0%nat /\
  snd (Run root fxOpts) = snd (Run root (with_hooks fxOpts)).
Proof.
  split; [reflexivity|]. split; [reflexivity|].
  apply (C6_absent_hooks_are_skipped root (plain (healthy quiet)));
    reflexivity.
Defined.

(** What [RunAndExit] does with an [ExitError] found on the chain of the
    error that [Run] returned. *)
Lemma RunAndExit_ExitError ctx fxOpts t err code sig :
  Run ctx fxOpts = (t, Returned (Some err)) ->
  errors_As err = Some (code, sig) ->
  RunAndExit ctx fxOpts =
    os_Exit (t ++ [log_line (exit_line code sig)]) code.
Proof.
  intros HR HA. unfold RunAndExit. now rewrite HR, HA.
Qed.

(** What [RunAndExit] does with an error that has no [ExitError] on its
    chain. *)
Lemma RunAndExit_Fatal ctx fxOpts t err :
  Run ctx fxOpts = (t, Returned (Some err)) ->
  errors_As err = None ->
  RunAndExit ctx fxOpts = os_Exit (t ++ [log_line (Error err)]) 1.
Proof.
  intros HR HA. unfold RunAndExit. now rewrite HR, HA.
Qed.

(** [RunAndExit] ends the process whenever [Run] returns; it is still
    running only when [Run] is blocked in the receive from Wait. *)
Lemma RunAndExit_exits ctx fxOpts :
  status (RunAndExit ctx fxOpts) = Running <-> snd (Run ctx fxOpts) = Blocked.
Proof.
  unfold RunAndExit.
  destruct (Run ctx fxOpts) as [t [[err|]|]]; cbn [snd].
  - destruct (errors_As err) as [[code sig]|]; cbn; split; discriminate.
  - cbn. split; discriminate.
  - cbn. tauto.
Qed.

(** C7: when Stop succeeded after a termination signal with exit code 3,
    [Run] returns an [ExitError] with code 3 and the signal's OS signal, and
    [RunAndExit] logs the exit line and calls [os.Exit(3)]. *)
Theorem C7_exit_code_3 ctx fxOpts sig :
  Wait_result ctx fxOpts = Some sig ->
  sig_ExitCode sig = 3 ->
  Stop_result ctx fxOpts = Some None ->
  snd (Run ctx fxOpts) = Returned (Some (ExitError 3 (sig_Signal sig))) /\
  status (RunAndExit ctx fxOpts) = Exited 3 /\
  events (RunAndExit ctx fxOpts) =
    fst (Run ctx fxOpts) ++ [log_line (exit_line 3 (sig_Signal sig))].
Proof.
  intros Hw Hc Hp.
  pose proof (Run_stopped ctx fxOpts sig Hw Hp) as HR.
  rewrite Hc in HR. cbn [Z.eqb Pos.eqb] in HR.
  rewrite (RunAndExit_ExitError ctx fxOpts _ _ 3 (sig_Signal sig) HR eq_refl).
  rewrite HR. cbn [fst snd status events os_Exit]. auto.
Qed.

Lemma C7_exit_code_3_witness :
  let fxOpts := plain (healthy (exit_code 3)) in
  Wait_result root fxOpts = Some (exit_code 3) /\
  sig_ExitCode (exit_code 3) = 3 /\
  Stop_result root fxOpts = Some None /\
  snd (Run root fxOpts) = Returned (Some (ExitError 3 None)) /\
  status (RunAndExit root fxOpts) = Exited 3 /\
  events (RunAndExit root fxOpts) =
    fst (Run root fxOpts) ++ [log_line (exit_line 3 None)].
Proof.
  split; [reflexivity|]. split; [reflexivity|]. split; [reflexivity|].
  apply (C7_exit_code_3 root (plain (healthy (exit_code 3))) (exit_code 3));
    reflexivity.
Defined.

(** ** Deferred cancels *)

Lemma quiet_for_In p t e : quiet_for p t -> In e t -> p e = false.
Proof.
  intros H Hin. unfold quiet_for in H. rewrite Forall_forall in H. auto.
Qed.

Lemma quiet_for_app p t1 t2 :
  quiet_for p t1 -> quiet_for p t2 -> quiet_for p (t1 ++ t2).
Proof. intros H1 H2. apply Forall_app. now split. Qed.

(** In a run that returned, every context that was derived is cancelled
    exactly once. *)
Lemma cancel_once ctx fxOpts r c :
  snd (Run ctx fxOpts) = Returned r ->
  In (call_WithTimeout c) (fst (Run ctx fxOpts)) ->
  count (is_cancel_of c) (fst (Run ctx fxOpts)) = 1%nat.
Proof.
  intros HR Hin. on_path ctx fxOpts; try discriminate HR.
  1-3: exfalso; apply (quiet_for_In is_WithTimeout) in Hin;
       [discriminate Hin|];
       repeat first [quiet | apply quiet_for_app | repeat constructor].
  all: apply in_app_or in Hin; destruct Hin as [Hin|Hin];
    [apply (quiet_for_In is_WithTimeout) in Hin; [discriminate Hin|quiet]|].
  all: drop_prologue; unfold startCtx, stopCtx, count in *;
    cbn in Hin; decompose [or] Hin; try discriminate; try contradiction.
  all: match goal with H : call_WithTimeout _ = call_WithTimeout _ |- _ =>
         injection H as <- end.
  all: cbn [filter is_cancel_of]; rewrite ?Context_eqb_refl; cbn.
  all: rewrite ?Z.eqb_refl, ?Context_eqb_refl; reflexivity.
Qed.

(** C8, as amended: the cancel functions of the bounded contexts are
    deferred calls, so they run when [Run] returns.  In every run that
    returns, each derived context is cancelled exactly once.  When Start
    fails, the start context is cancelled right after Start.  When Start
    succeeds, the stop context is cancelled right after Stop, whatever Stop
    answered, and the start context is cancelled last: after Wait, not
    before it. *)
Theorem C8_cancels_run_at_return ctx fxOpts r :
  snd (Run ctx fxOpts) = Returned r ->
  (forall c, In (call_WithTimeout c) (fst (Run ctx fxOpts)) ->
             count (is_cancel_of c) (fst (Run ctx fxOpts)) = 1%nat) /\
  (forall e, Start_result ctx fxOpts = Some (Some e) ->
             exists pre,
               fst (Run ctx fxOpts) =
                 pre ++ [call_Start (startCtx ctx fxOpts);
                         call_cancel (startCtx ctx fxOpts)]) /\
  (Start_result ctx fxOpts = Some None ->
   (exists pre,
      fst (Run ctx fxOpts) =
        pre ++ [call_Stop (stopCtx ctx fxOpts);
                call_cancel (stopCtx ctx fxOpts);
                call_cancel (startCtx ctx fxOpts)]) /\
   precedes is_Wait (is_cancel_of (startCtx ctx fxOpts))
     (fst (Run ctx fxOpts)) /\
   ~ precedes (is_cancel_of (startCtx ctx fxOpts)) is_Wait
       (fst (Run ctx fxOpts))).
Proof.
  intros HR. split; [|split].
  - intros c. now apply cancel_once with r.
  - intros e HS. rewrite (Run_Start_failed ctx fxOpts e HS). cbn [fst].
    exists (prologue fxOpts ++ [call_WithTimeout (startCtx ctx fxOpts)]).
    now rewrite <- app_assoc.
  - intros HS.
    destruct (Run_returned_after_Start ctx fxOpts r HR HS) as [sig Hw].
    rewrite (Run_trace_delivered ctx fxOpts sig Hw). unfold full_trace.
    split; [|split].
    + exists (prologue fxOpts ++
              [call_WithTimeout (startCtx ctx fxOpts);
               call_Start (startCtx ctx fxOpts); call_Wait; recv_Wait sig;
               call_WithTimeout (stopCtx ctx fxOpts)]).
      now rewrite <- app_assoc.
    + apply before_precedes. drop_prologue. cbn.
      now rewrite Z.eqb_refl, Context_eqb_refl.
    + intros H. apply before_precedes in H. revert H. drop_prologue.
      unfold startCtx, stopCtx. cbn.
      rewrite andb_false_r. discriminate.
Qed.

Lemma C8_cancels_run_at_return_witness :
  let fxOpts := plain (stop_fails quiet boom) in
  let t := fst (Run root fxOpts) in
  snd (Run root fxOpts) = Returned (Some (fmt_Errorf "fx.Stop: " boom)) /\
  (forall c, In (call_WithTimeout c) t -> count (is_cancel_of c) t = 1%nat) /\
  (forall e, Start_result root fxOpts = Some (Some e) ->
             exists pre,
               t = pre ++ [call_Start (startCtx root fxOpts);
                           call_cancel (startCtx root fxOpts)]) /\
  (Start_result root fxOpts = Some None ->
   (exists pre,
      t = pre ++ [call_Stop (stopCtx root fxOpts);
                  call_cancel (stopCtx root fxOpts);
                  call_cancel (startCtx root fxOpts)]) /\
   precedes is_Wait (is_cancel_of (startCtx root fxOpts)) t /\
   ~ precedes (is_cancel_of (startCtx root fxOpts)) is_Wait t).
Proof.
  split; [reflexivity|].
  apply (C8_cancels_run_at_return root (plain (stop_fails quiet boom))
           (Some (fmt_Errorf "fx.Stop: " boom))).
  reflexivity.
Defined.

(** C8, the claim as written fails: in a run where every phase succeeds the
    start context is cancelled as the last event of [Run], after the receive
    from Wait and after Stop, and not before Wait begins. *)
Lemma C8_start_context_outlives_Wait :
  let fxOpts := plain (healthy quiet) in
  let c1 := startCtx root fxOpts in
  let c2 := stopCtx root fxOpts in
  Run root fxOpts =
    ([call_New; call_WithTimeout c1; call_Start c1; call_Wait;
      recv_Wait quiet; call_WithTimeout c2; call_Stop c2;
      call_cancel c2; call_cancel c1],
     Returned None) /\
  Start_result root fxOpts = Some None /\
  before (is_cancel_of c1) is_Wait (fst (Run root fxOpts)) = false /\
  before is_Wait (is_cancel_of c1) (fst (Run root fxOpts)) = true.
Proof.
  cbv zeta. repeat split.
Qed.

(** C9, as amended: when [Run] returns a phase error in whose cause
    [errors.As] can find no [ExitError], none along [Unwrap() error], none
    among the errors of an [Unwrap() []error], none through an [As] method,
    [RunAndExit] logs the message of that error, which is the phase tag
    followed by the message of the cause, and calls [os.Exit(1)]. *)
Theorem C9_phase_error_is_fatal ctx fxOpts t tag cause :
  Run ctx fxOpts = (t, Returned (Some (fmt_Errorf tag cause))) ->
  has_ExitError cause = false ->
  RunAndExit ctx fxOpts =
    {| events := t ++ [log_line (tag ++ Error cause)%string];
       status := Exited 1 |} /\
  String.prefix tag (tag ++ Error cause)%string = true.
Proof.
  intros HR HE. split; [|apply prefix_append].
  apply errors_As_has_ExitError in HE.
  now rewrite (RunAndExit_Fatal ctx fxOpts t _ HR HE).
Qed.

Lemma C9_phase_error_is_fatal_witness :
  let fxOpts := plain (start_fails joined_plain) in
  let t := fst (Run root fxOpts) in
  Run root fxOpts =
    (t, Returned (Some (fmt_Errorf "fx.Start: " joined_plain))) /\
  has_ExitError joined_plain = false /\
  RunAndExit root fxOpts =
    {| events := t ++ [log_line ("fx.Start: " ++ Error joined_plain)%string];
       status := Exited 1 |} /\
  String.prefix "fx.Start: " ("fx.Start: " ++ Error joined_plain)%string
    = true.
Proof.
  split; [reflexivity|]. split; [reflexivity|].
  apply (C9_phase_error_is_fatal root (plain (start_fails joined_plain))
           (fst (Run root (plain (start_fails joined_plain))))
           "fx.Start: " joined_plain);
    reflexivity.
Defined.

(** C9, the claim as written fails twice.  A Validate method that returns
    an [ExitError] with code 0 makes [Run] return a phase error, yet
    [RunAndExit] does not treat it as fatal and exits with status 0.  And
    the status of the fatal path, 1, is also the status of an application
    that asks to exit with code 1. *)
Lemma C9_fatal_status_is_not_reserved :
  let wrapped := validate_fails (ExitError 0 None) (healthy quiet) in
  let failing := plain (start_fails boom) in
  let exiting := plain (healthy (exit_code 1)) in
  (snd (Run root wrapped) =
     Returned (Some (fmt_Errorf "validate: " (ExitError 0 None))) /\
   status (RunAndExit root wrapped) = Exited 0) /\
  (snd (Run root failing) = Returned (Some (fmt_Errorf "fx.Start: " boom)) /\
   status (RunAndExit root failing) = Exited 1 /\
   snd (Run root exiting) = Returned (Some (ExitError 1 None)) /\
   status (RunAndExit root exiting) = Exited 1).
Proof.
  cbv zeta. repeat split.
Qed.

(** C10: when [Run] returns a phase error whose cause has an [ExitError] on
    its chain, [RunAndExit] finds it through the wrapping, logs the exit
    line of that [ExitError] and calls [os.Exit] with its code; it does not
    take the fatal path. *)
Theorem C10_wrapped_ExitError_decides_status ctx fxOpts t tag cause code sig :
  Run ctx fxOpts = (t, Returned (Some (fmt_Errorf tag cause))) ->
  In (ExitError code sig) (chain cause) ->
  errors_As (fmt_Errorf tag cause) = Some (code, sig) /\
  RunAndExit ctx fxOpts =
    {| events := t ++ [log_line (exit_line code sig)];
       status := Exited code |}.
Proof.
  intros HR Hin.
  assert (HA : errors_As (fmt_Errorf tag cause) = Some (code, sig)).
  { apply errors_As_chain. cbn. right. exact Hin. }
  split; [exact HA|].
  now rewrite (RunAndExit_ExitError ctx fxOpts t _ code sig HR HA).
Qed.

Lemma C10_wrapped_ExitError_decides_status_witness :
  let fxOpts := validate_fails (ExitError 4 None) (healthy quiet) in
  let t := fst (Run root fxOpts) in
  Run root fxOpts =
    (t, Returned (Some (fmt_Errorf "validate: " (ExitError 4 None)))) /\
  In (ExitError 4 None) (chain (ExitError 4 None)) /\
  errors_As (fmt_Errorf "validate: " (ExitError 4 None)) = Some (4, None) /\
  RunAndExit root fxOpts =
    {| events := t ++ [log_line (exit_line 4 None)];
       status := Exited 4 |}.
Proof.
  split; [reflexivity|]. split; [left; reflexivity|].
  apply (C10_wrapped_ExitError_decides_status root
           (validate_fails (ExitError 4 None) (healthy quiet))
           (fst (Run root (validate_fails (ExitError 4 None) (healthy quiet))))
           "validate: " (ExitError 4 None) 4 None);
    [reflexivity|left; reflexivity].
Defined.

(** * Further properties of [Run] and [RunAndExit] *)

(** ** The remaining early returns *)

(** X1: when SetDefaults is absent or returns nil and Validate fails, [Run]
    returns the error of Validate wrapped under the validate tag; Validate
    was called once, and nothing was built, started, awaited or stopped and
    no context was derived. *)
Theorem X1_Validate_failure_returns_at_once ctx fxOpts e :
  passes (SetDefaulter fxOpts) = true ->
  Validator fxOpts = Some (Some e) ->
  snd (Run ctx fxOpts) = Returned (Some (fmt_Errorf "validate: " e)) /\
  count is_Validate (fst (Run ctx fxOpts)) = 1%nat /\
  last (fst (Run ctx fxOpts)) call_New = call_Validate /\
  count is_New (fst (Run ctx fxOpts)) = 0%nat /\
  count is_WithTimeout (fst (Run ctx fxOpts)) = 0%nat /\
  count is_Start (fst (Run ctx fxOpts)) = 0%nat /\
  count is_Wait (fst (Run ctx fxOpts)) = 0%nat /\
  count is_Stop (fst (Run ctx fxOpts)) = 0%nat.
Proof.
  intros Hd Hv.
  rewrite (path_Run ctx fxOpts _ _ (path_Validate ctx fxOpts e Hd Hv)).
  cbn [fst snd]. split; [reflexivity|].
  destruct (SetDefaulter fxOpts) as [[d|]|]; [discriminate Hd| |];
    cbn; repeat split.
Qed.

Lemma X1_Validate_failure_returns_at_once_witness :
  let fxOpts := validate_fails boom (healthy quiet) in
  passes (SetDefaulter fxOpts) = true /\
  Validator fxOpts = Some (Some boom) /\
  snd (Run root fxOpts) = Returned (Some (fmt_Errorf "validate: " boom)) /\
  count is_Validate (fst (Run root fxOpts)) = 1%nat /\
  last (fst (Run root fxOpts)) call_New = call_Validate /\
  count is_New (fst (Run root fxOpts)) = 0%nat /\
  count is_WithTimeout (fst (Run root fxOpts)) = 0%nat /\
  count is_Start (fst (Run root fxOpts)) = 0%nat /\
  count is_Wait (fst (Run root fxOpts)) = 0%nat /\
  count is_Stop (fst (Run root fxOpts)) = 0%nat.
Proof.
  split; [reflexivity|]. split; [reflexivity|].
  apply (X1_Validate_failure_returns_at_once root
           (validate_fails boom (healthy quiet)) boom); reflexivity.
Defined.

(** X2: when the hooks pass and the application built by [fx.New] carries
    an error, [Run] returns that error wrapped under the [fx.New] tag right
    after building: no context is derived, so there is nothing to cancel,
    and Start, Wait and Stop are not called. *)
Theorem X2_Build_failure_returns_at_once ctx fxOpts e :
  passes (SetDefaulter fxOpts) = true ->
  passes (Validator fxOpts) = true ->
  Err (Fx fxOpts) = Some e ->
  snd (Run ctx fxOpts) = Returned (Some (fmt_Errorf "fx.New: " e)) /\
  last (fst (Run ctx fxOpts)) call_Wait = call_New /\
  count is_New (fst (Run ctx fxOpts)) = 1%nat /\
  count is_WithTimeout (fst (Run ctx fxOpts)) = 0%nat /\
  count is_cancel (fst (Run ctx fxOpts)) = 0%nat /\
  count is_Start (fst (Run ctx fxOpts)) = 0%nat /\
  count is_Wait (fst (Run ctx fxOpts)) = 0%nat /\
  count is_Stop (fst (Run ctx fxOpts)) = 0%nat.
Proof.
  intros Hd Hv Hb.
  rewrite (path_Run ctx fxOpts _ _ (path_New ctx fxOpts e Hd Hv Hb)).
  cbn [fst snd]. split; [reflexivity|]. unfold prologue.
  destruct (SetDefaulter fxOpts) as [[d|]|]; [discriminate Hd| |];
    (destruct (Validator fxOpts) as [[v|]|]; [discriminate Hv| |]);
    cbn; repeat split.
Qed.

Lemma X2_Build_failure_returns_at_once_witness :
  let fxOpts := plain (build_fails boom) in
  passes (SetDefaulter fxOpts) = true /\
  passes (Validator fxOpts) = true /\
  Err (Fx fxOpts) = Some boom /\
  snd (Run root fxOpts) = Returned (Some (fmt_Errorf "fx.New: " boom)) /\
  last (fst (Run root fxOpts)) call_Wait = call_New /\
  count is_New (fst (Run root fxOpts)) = 1%nat /\
  count is_WithTimeout (fst (Run root fxOpts)) = 0%nat /\
  count is_cancel (fst (Run root fxOpts)) = 0%nat /\
  count is_Start (fst (Run root fxOpts)) = 0%nat /\
  count is_Wait (fst (Run root fxOpts)) = 0%nat /\
  count is_Stop (fst (Run root fxOpts)) = 0%nat.
Proof.
  split; [reflexivity|]. split; [reflexivity|]. split; [reflexivity|].
  apply (X2_Build_failure_returns_at_once root (plain (build_fails boom))
           boom); reflexivity.
Defined.

(** ** The receive that never delivers *)

(** X3: when Start succeeded and the channel of Wait never delivers, [Run]
    does not return: it is blocked in the receive, Stop is not called, no
    deferred cancel has run, and [RunAndExit] has neither logged nor
    exited. *)
Theorem X3_Run_blocks_until_signalled ctx fxOpts :
  Start_result ctx fxOpts = Some None ->
  Wait (Fx fxOpts) = None ->
  snd (Run ctx fxOpts) = Blocked /\
  last (fst (Run ctx fxOpts)) call_New = call_Wait /\
  count is_Stop (fst (Run ctx fxOpts)) = 0%nat /\
  count is_cancel (fst (Run ctx fxOpts)) = 0%nat /\
  RunAndExit ctx fxOpts =
    {| events := fst (Run ctx fxOpts); status := Running |}.
Proof.
  intros HS Hw. apply Start_called in HS. destruct HS as (Hd & Hv & Hb & HS).
  pose proof (path_Run ctx fxOpts _ _
                (path_Wait ctx fxOpts Hd Hv Hb HS Hw)) as HR.
  unfold RunAndExit. rewrite HR. cbn [fst snd].
  split; [reflexivity|]. split; [|split; [|split; [|reflexivity]]].
  - change (last (prologue fxOpts ++
                  ([call_WithTimeout (startCtx ctx fxOpts);
                    call_Start (startCtx ctx fxOpts)] ++ [call_Wait]))
             call_New = call_Wait).
    rewrite app_assoc. apply last_last.
  - now drop_prologue.
  - now drop_prologue.
Qed.

Lemma X3_Run_blocks_until_signalled_witness :
  let fxOpts := plain never_signalled in
  Start_result root fxOpts = Some None /\
  Wait (Fx fxOpts) = None /\
  snd (Run root fxOpts) = Blocked /\
  last (fst (Run root fxOpts)) call_New = call_Wait /\
  count is_Stop (fst (Run root fxOpts)) = 0%nat /\
  count is_cancel (fst (Run root fxOpts)) = 0%nat /\
  RunAndExit root fxOpts =
    {| events := fst (Run root fxOpts); status := Running |}.
Proof.
  split; [reflexivity|]. split; [reflexivity|].
  apply (X3_Run_blocks_until_signalled root (plain never_signalled));
    reflexivity.
Defined.

(** ** The contexts handed to Start and Stop *)

(** Every event of a trace of [Run] is one of these calls. *)
Lemma Run_events ctx fxOpts e :
  In e (fst (Run ctx fxOpts)) ->
  In e [call_SetDefaults; call_Validate; call_New;
        call_WithTimeout (startCtx ctx fxOpts);
        call_Start (startCtx ctx fxOpts); call_Wait;
        call_WithTimeout (stopCtx ctx fxOpts);
        call_Stop (stopCtx ctx fxOpts);
        call_cancel (stopCtx ctx fxOpts);
        call_cancel (startCtx ctx fxOpts)] \/
  exists sig, e = recv_Wait sig.
Proof.
  intros Hin. on_path ctx fxOpts; unfold prologue in Hin.
  all: destruct (SetDefaulter fxOpts) as [[?|]|];
    destruct (Validator fxOpts) as [[?|]|]; try discriminate.
  all: cbn in Hin; decompose [or] Hin; try contradiction; subst e;
    solve [left; cbn; tauto | right; eauto].
Qed.

(** X4: whenever Start is called it is given the context derived from the
    caller's context with the application's start timeout, and whenever
    Stop is called it is given a second context, derived from the caller's
    context too, not from the start context, with the stop timeout. *)
Theorem X4_bounded_contexts_derive_from_caller ctx fxOpts :
  (forall c, In (call_Start c) (fst (Run ctx fxOpts)) ->
             c = WithTimeout_ctx ctx (StartTimeout (Fx fxOpts)) 0) /\
  (forall c, In (call_Stop c) (fst (Run ctx fxOpts)) ->
             c = WithTimeout_ctx ctx (StopTimeout (Fx fxOpts)) 1) /\
  (forall c, In (call_WithTimeout c) (fst (Run ctx fxOpts)) ->
             exists timeout serial, c = WithTimeout_ctx ctx timeout serial).
Proof.
  split; [|split]; intros c Hin; apply Run_events in Hin;
    destruct Hin as [Hin|[sig Hin]]; try discriminate Hin;
    unfold startCtx, stopCtx in Hin; cbn in Hin;
    decompose [or] Hin; try discriminate; try contradiction.
  all: match goal with
       | H : call_Start _ = call_Start _ |- _ => injection H as <-
       | H : call_Stop _ = call_Stop _ |- _ => injection H as <-
       | H : call_WithTimeout _ = call_WithTimeout _ |- _ =>
           injection H as <-
       end;
    eauto.
Qed.

(** ** The order of the phases *)

(** X5: in every trace of [Run] the calls come in the order of the
    lifecycle, SetDefaults, Validate, fx.New, Start, Wait, the receive,
    Stop, each place strictly after the one before: no phase is repeated
    and no two are swapped. *)
Theorem X5_phases_in_lifecycle_order ctx fxOpts :
  StronglySorted Nat.lt (ranks (fst (Run ctx fxOpts))).
Proof.
  on_path ctx fxOpts; unfold prologue, startCtx, stopCtx.
  all: destruct (SetDefaulter fxOpts) as [[?|]|];
    destruct (Validator fxOpts) as [[?|]|]; try discriminate;
    cbn; repeat constructor.
Qed.

(** ** What the result of [Run] says about the run *)

(** [Run] itself writes no log line. *)
Lemma Run_logs_nothing ctx fxOpts : count is_log (fst (Run ctx fxOpts)) = 0%nat.
Proof.
  on_path ctx fxOpts; drop_prologue; reflexivity.
Qed.

(** X6: [Run] returns nil exactly when Start was called and succeeded, Wait
    delivered a termination signal with exit code 0, and Stop was called
    and succeeded. *)
Theorem X6_nil_means_clean_shutdown ctx fxOpts :
  snd (Run ctx fxOpts) = Returned None <->
  Start_result ctx fxOpts = Some None /\
  Stop_result ctx fxOpts = Some None /\
  exists sig, Wait_result ctx fxOpts = Some sig /\ sig_ExitCode sig = 0.
Proof.
  split.
  - intros HR. on_path ctx fxOpts; try discriminate HR.
    drop_prologue. cbn. unfold startCtx, stopCtx in *.
    repeat split; try congruence. exists sig. auto.
  - intros (_ & Hp & sig & Hw & Hc).
    rewrite (Run_stopped ctx fxOpts sig Hw Hp). cbn [snd].
    now rewrite Hc.
Qed.

(** X7: an [ExitError] that [Run] returns as such, not wrapped under a
    phase tag, always has a nonzero exit code; it carries the code and the
    OS signal of the termination signal that Wait delivered, and Stop has
    succeeded. *)
Theorem X7_ExitError_has_nonzero_code ctx fxOpts code sig :
  snd (Run ctx fxOpts) = Returned (Some (ExitError code sig)) ->
  code <> 0 /\
  Wait_result ctx fxOpts =
    Some {| sig_Signal := sig; sig_ExitCode := code |} /\
  Stop_result ctx fxOpts = Some None.
Proof.
  intros HR. on_path ctx fxOpts; unfold fmt_Errorf in HR;
    try discriminate HR.
  injection HR as <- <-. drop_prologue. cbn.
  unfold startCtx, stopCtx in *. destruct sig0 as [s c]. cbn in *.
  repeat split; congruence.
Qed.

Lemma X7_ExitError_has_nonzero_code_witness :
  let fxOpts := plain (healthy (exit_code (-2))) in
  snd (Run root fxOpts) = Returned (Some (ExitError (-2) None)) /\
  -2 <> 0 /\
  Wait_result root fxOpts =
    Some {| sig_Signal := None; sig_ExitCode := -2 |} /\
  Stop_result root fxOpts = Some None.
Proof.
  split; [reflexivity|].
  apply (X7_ExitError_has_nonzero_code root
           (plain (healthy (exit_code (-2)))) (-2) None).
  reflexivity.
Defined.

(** ** The exit status *)

(** X8: for every nonzero exit code, when Wait delivered a termination
    signal with that code and Stop succeeded, [RunAndExit] adds one line to
    the trace of [Run], the message of the [ExitError], and calls
    [os.Exit] with that code. *)
Theorem X8_exit_status_is_signal_code ctx fxOpts sig :
  Wait_result ctx fxOpts = Some sig ->
  sig_ExitCode sig <> 0 ->
  Stop_result ctx fxOpts = Some None ->
  RunAndExit ctx fxOpts =
    {| events :=
         fst (Run ctx fxOpts) ++
         [log_line (Error (ExitError (sig_ExitCode sig) (sig_Signal sig)))];
       status := Exited (sig_ExitCode sig) |}.
Proof.
  intros Hw Hc Hp.
  pose proof (Run_stopped ctx fxOpts sig Hw Hp) as HR.
  apply Z.eqb_neq in Hc. rewrite Hc in HR.
  rewrite (RunAndExit_ExitError ctx fxOpts _ _ _ _ HR eq_refl).
  now rewrite HR.
Qed.

Lemma X8_exit_status_is_signal_code_witness :
  let fxOpts := plain (healthy (exit_code 130)) in
  Wait_result root fxOpts = Some (exit_code 130) /\
  sig_ExitCode (exit_code 130) <> 0 /\
  Stop_result root fxOpts = Some None /\
  RunAndExit root fxOpts =
    {| events :=
         fst (Run root fxOpts) ++ [log_line (Error (ExitError 130 None))];
       status := Exited 130 |}.
Proof.
  split; [reflexivity|]. split; [discriminate|]. split; [reflexivity|].
  apply (X8_exit_status_is_signal_code root
           (plain (healthy (exit_code 130))) (exit_code 130));
    [reflexivity|discriminate|reflexivity].
Defined.

(** X9: [RunAndExit] exits with status 0 without logging anything exactly
    when [Run] returns nil. *)
Theorem X9_silent_exit_0_means_nil ctx fxOpts :
  status (RunAndExit ctx fxOpts) = Exited 0 /\
  count is_log (events (RunAndExit ctx fxOpts)) = 0%nat <->
  snd (Run ctx fxOpts) = Returned None.
Proof.
  pose proof (Run_logs_nothing ctx fxOpts) as Hlog.
  unfold RunAndExit.
  destruct (Run ctx fxOpts) as [t [[err|]|]]; cbn [fst snd] in *.
  - split; [|discriminate]. intros [_ H]. exfalso. revert H.
    destruct (errors_As err) as [[code sig]|]; cbn [log_Fatal os_Exit events];
      unfold count in *; rewrite filter_app, length_app, Hlog; discriminate.
  - cbn. tauto.
  - cbn. split; [intros [H _]; discriminate H|discriminate].
Qed.

(** X10: when Stop fails after a termination signal and the error of Stop
    has an [ExitError] on its chain, the status of [RunAndExit] is the code
    of that [ExitError], whatever exit code the termination signal had. *)
Theorem X10_Stop_ExitError_overrides_signal ctx fxOpts sig cause code s :
  Wait_result ctx fxOpts = Some sig ->
  Stop_result ctx fxOpts = Some (Some cause) ->
  In (ExitError code s) (chain cause) ->
  status (RunAndExit ctx fxOpts) = Exited code.
Proof.
  intros Hw Hp Hin.
  pose proof (Run_Stop_failed ctx fxOpts sig cause Hw Hp) as HR.
  assert (HA : errors_As (fmt_Errorf "fx.Stop: " cause) = Some (code, s)).
  { apply errors_As_chain. cbn. right. exact Hin. }
  now rewrite (RunAndExit_ExitError ctx fxOpts _ _ code s HR HA).
Qed.

Lemma X10_Stop_ExitError_overrides_signal_witness :
  let fxOpts := plain (stop_fails (exit_code 7) (ExitError 9 None)) in
  Wait_result root fxOpts = Some (exit_code 7) /\
  Stop_result root fxOpts = Some (Some (ExitError 9 None)) /\
  In (ExitError 9 None) (chain (ExitError 9 None)) /\
  status (RunAndExit root fxOpts) = Exited 9.
Proof.
  split; [reflexivity|]. split; [reflexivity|]. split; [left; reflexivity|].
  apply (X10_Stop_ExitError_overrides_signal root
           (plain (stop_fails (exit_code 7) (ExitError 9 None)))
           (exit_code 7) (ExitError 9 None) 9 None);
    [reflexivity|reflexivity|left; reflexivity].
Defined.

(** ** What the message of the returned error says *)

Ltac absurd_answers :=
  repeat match goal with
    | H : _ /\ _ |- _ => destruct H
    | H : exists _, _ |- _ => destruct H
    end;
  try discriminate;
  match goal with
  | Hp : passes ?x = true, He : ?x = Some (Some _) |- _ =>
      rewrite He in Hp; discriminate Hp
  end.

Ltac tag_iff :=
  split; intros ?Hx;
  [ first [ cbn in Hx; discriminate Hx | solve [repeat split; eauto] ]
  | first [ apply prefix_append | exfalso; absurd_answers ] ].

(** X11: the message of the error that [Run] returns names the phase that
    failed: it begins with the set-defaults tag exactly when SetDefaults
    failed, with the validate tag exactly when Validate was reached and
    failed, with the [fx.New] tag exactly when building failed, with the
    [fx.Start] or [fx.Stop] tag exactly when Start or Stop was called and
    failed, and with the exit line exactly when Stop succeeded. *)
Theorem X11_message_names_the_failed_phase ctx fxOpts err :
  snd (Run ctx fxOpts) = Returned (Some err) ->
  (String.prefix "set defaults: " (Error err) = true <->
   exists e, SetDefaulter fxOpts = Some (Some e)) /\
  (String.prefix "validate: " (Error err) = true <->
   passes (SetDefaulter fxOpts) = true /\
   exists e, Validator fxOpts = Some (Some e)) /\
  (String.prefix "fx.New: " (Error err) = true <->
   passes (SetDefaulter fxOpts) = true /\
   passes (Validator fxOpts) = true /\
   exists e, Err (Fx fxOpts) = Some e) /\
  (String.prefix "fx.Start: " (Error err) = true <->
   exists e, Start_result ctx fxOpts = Some (Some e)) /\
  (String.prefix "fx.Stop: " (Error err) = true <->
   exists e, Stop_result ctx fxOpts = Some (Some e)) /\
  (String.prefix "exit: code=" (Error err) = true <->
   Stop_result ctx fxOpts = Some None).
Proof.
  intros HR. on_path ctx fxOpts; try discriminate HR; injection HR as <-;
    unfold fmt_Errorf; cbn [Error]; unfold exit_line; drop_prologue;
    cbn [find is_Start is_Stop app]; unfold startCtx, stopCtx in *.
  all: repeat match goal with
         | H : ?x = _ |- context [?x] => rewrite H
         end.
  all: repeat match goal with |- _ /\ _ => split end; tag_iff.
Qed.

Lemma X11_message_names_the_failed_phase_witness :
  let fxOpts := plain (stop_fails (exit_code 7) boom) in
  let err := fmt_Errorf "fx.Stop: " boom in
  snd (Run root fxOpts) = Returned (Some err) /\
  (String.prefix "set defaults: " (Error err) = true <->
   exists e, SetDefaulter fxOpts = Some (Some e)) /\
  (String.prefix "validate: " (Error err) = true <->
   passes (SetDefaulter fxOpts) = true /\
   exists e, Validator fxOpts = Some (Some e)) /\
  (String.prefix "fx.New: " (Error err) = true <->
   passes (SetDefaulter fxOpts) = true /\
   passes (Validator fxOpts) = true /\
   exists e, Err (Fx fxOpts) = Some e) /\
  (String.prefix "fx.Start: " (Error err) = true <->
   exists e, Start_result root fxOpts = Some (Some e)) /\
  (String.prefix "fx.Stop: " (Error err) = true <->
   exists e, Stop_result root fxOpts = Some (Some e)) /\
  (String.prefix "exit: code=" (Error err) = true <->
   Stop_result root fxOpts = Some None).
Proof.
  split; [reflexivity|].
  apply (X11_message_names_the_failed_phase root
           (plain (stop_fails (exit_code 7) boom))
           (fmt_Errorf "fx.Stop: " boom)).
  reflexivity.
Defined.

(** ** The message of an [ExitError] *)

Lemma fmt_d_inj a b : fmt_d a = fmt_d b -> a = b.
Proof.
  unfold fmt_d. intros H. apply DecimalZ.to_int_inj.
  assert (Hnil : forall n, Z.to_int n <> Decimal.Pos Decimal.Nil /\
                           Z.to_int n <> Decimal.Neg Decimal.Nil).
  { intros [|p|p]; cbn; split; try discriminate; intros [= Hp];
      now apply DecimalPos.Unsigned.to_uint_nonnil in Hp. }
  destruct (Hnil a) as [Ha1 Ha2], (Hnil b) as [Hb1 Hb2].
  pose proof (NilZero.isi _ Ha1 Ha2) as Ia.
  pose proof (NilZero.isi _ Hb1 Hb2) as Ib.
  rewrite H in Ia. rewrite Ia in Ib. now injection Ib.
Qed.

Lemma spaceless_uint d : spaceless (NilEmpty.string_of_uint d) = true.
Proof. induction d; cbn; auto. Qed.

Lemma spaceless_fmt_d n : spaceless (fmt_d n) = true.
Proof.
  unfold fmt_d, NilZero.string_of_int, NilZero.string_of_uint.
  destruct (Z.to_int n) as [d|d]; destruct d; cbn;
    try reflexivity; apply spaceless_uint.
Qed.

(** Two strings that agree, each cut at its first space, agree on both
    sides of the cut. *)
Lemma cut_at_space a b x y :
  spaceless a = true -> spaceless b = true ->
  (a ++ String " " x)%string = (b ++ String " " y)%string ->
  a = b /\ x = y.
Proof.
  revert b. induction a as [|c a IH]; intros [|c' b] Ha Hb H; cbn in *.
  - injection H as ->. auto.
  - injection H as <- _. cbn in Hb. discriminate Hb.
  - injection H as -> _. cbn in Ha. discriminate Ha.
  - injection H as -> H.
    apply andb_true_iff in Ha, Hb. destruct Ha as [_ Ha], Hb as [_ Hb].
    destruct (IH b Ha Hb H) as [-> ->]. auto.
Qed.

(** X12: the message of an [ExitError] determines its exit code: two
    [ExitError] values have the same message exactly when they have the
    same exit code and their OS signals print alike. *)
Theorem X12_message_determines_exit_code c1 s1 c2 s2 :
  Error (ExitError c1 s1) = Error (ExitError c2 s2) <->
  c1 = c2 /\ fmt_s s1 = fmt_s s2.
Proof.
  cbn [Error]. unfold exit_line. split.
  - intros H. cbn in H. injection H as H.
    apply (cut_at_space (fmt_d c1) (fmt_d c2)) in H;
      try apply spaceless_fmt_d.
    destruct H as [Hc Hs]. split; [now apply fmt_d_inj|].
    now injection Hs.
  - intros [-> ->]. reflexivity.
Qed.
